(** * Shallow embedding of the FFmpeg session commands of [src-tauri/src/lib.rs]

    The three Tauri commands [start_ffmpeg_encode], [send_frame_rgba] and
    [stop_ffmpeg_encode] share one [FfmpegState], a [Mutex<Option<FfmpegSession>>].
    They are modelled as computations in a state-and-error monad over a
    [World] made of that mutex and of the trace of the I/O operations the
    commands perform (download of the binary, spawn, pipe writes, pipe close,
    wait).  The outcome of each OS operation is an explicit argument of the
    command, so every theorem quantifies over all the ways the OS can answer.

    Integers are modelled as [Z]; [u32] arithmetic is the release-build
    wrapping arithmetic of Rust, written out with [wrap32]. *)

From Stdlib Require Import ZArith List String Ascii Bool Lia.
Import ListNotations.
Open Scope string_scope.
Open Scope Z_scope.

(** ** Rust results and integers *)

Inductive Result (A E : Type) : Type :=
| Ok : A -> Result A E
| Err : E -> Result A E.
Arguments Ok {A E} _.
Arguments Err {A E} _.

Definition is_u32 (z : Z) : Prop := 0 <= z < 2 ^ 32.

(** [u32] multiplication wraps modulo 2^32 (release profile). *)
Definition wrap32 (z : Z) : Z := z mod 2 ^ 32.

Definition u32_mul (a b : Z) : Z := wrap32 (a * b).

(** ** Decimal formatting ([Display] of integers, [Debug] of [Option<i32>]) *)

Fixpoint string_of_uint (d : Decimal.uint) : string :=
  match d with
  | Decimal.Nil => ""
  | Decimal.D0 d => String "0"%char (string_of_uint d)
  | Decimal.D1 d => String "1"%char (string_of_uint d)
  | Decimal.D2 d => String "2"%char (string_of_uint d)
  | Decimal.D3 d => String "3"%char (string_of_uint d)
  | Decimal.D4 d => String "4"%char (string_of_uint d)
  | Decimal.D5 d => String "5"%char (string_of_uint d)
  | Decimal.D6 d => String "6"%char (string_of_uint d)
  | Decimal.D7 d => String "7"%char (string_of_uint d)
  | Decimal.D8 d => String "8"%char (string_of_uint d)
  | Decimal.D9 d => String "9"%char (string_of_uint d)
  end.

Definition fmt_int (z : Z) : string :=
  match Z.to_int z with
  | Decimal.Pos d => string_of_uint d
  | Decimal.Neg d => "-" ++ string_of_uint d
  end.

Definition fmt_debug_option_i32 (o : option Z) : string :=
  match o with
  | Some c => "Some(" ++ fmt_int c ++ ")"
  | None => "None"
  end.

(** ** OS handles *)

(** The write end of the child's standard input pipe. *)
Record ChildStdin := mkChildStdin { stdin_fd : Z }.

(** [std::process::Child]: its pid and its optional stdin handle. *)
Record Child := mkChild { child_pid : Z; child_stdin : option ChildStdin }.

(** [ExitStatus]: [code()] is [None] when the process was killed by a signal. *)
Record ExitStatus := mkExitStatus { exit_code : option Z }.

Definition status_success (s : ExitStatus) : bool :=
  match exit_code s with Some 0 => true | _ => false end.

Inductive Stdio := Piped | Null | Inherit.

(** [std::process::Command] as a builder value. *)
Record Command := mkCommand {
  program : string;
  cmd_args : list string;
  cfg_stdin : Stdio;
  cfg_stdout : Stdio;
  cfg_stderr : Stdio
}.

Definition Command_new (p : string) : Command :=
  mkCommand p [] Inherit Inherit Inherit.
Definition Command_args (c : Command) (a : list string) : Command :=
  mkCommand (program c) (cmd_args c ++ a) (cfg_stdin c) (cfg_stdout c) (cfg_stderr c).
Definition Command_arg (c : Command) (a : string) : Command :=
  Command_args c [a].
Definition Command_stdio (c : Command) (i o e : Stdio) : Command :=
  mkCommand (program c) (cmd_args c) i o e.

(** ** Session state *)

Record FfmpegSession := mkFfmpegSession {
  child : Child;
  stdin : ChildStdin;
  width : Z;
  height : Z
}.

(** [Mutex<T>]: the poison flag and the protected value. *)
Record Mutex (A : Type) := mkMutex { poisoned : bool; inner : A }.
Arguments mkMutex {A} _ _.
Arguments poisoned {A} _.
Arguments inner {A} _.

Definition FfmpegState := Mutex (option FfmpegSession).

(** I/O operations performed by the commands, in order. *)
Inductive Event :=
| EvDownload
| EvSpawn (c : Command)
| EvWrite (fd : ChildStdin) (data : list Byte.byte)
| EvClose (fd : ChildStdin)
| EvWait (pid : Z).

Record World := mkWorld { state : FfmpegState; trace : list Event }.

Definition slot (w : World) : option FfmpegSession := inner (state w).

(** [FfmpegState(Mutex::new(None))] in [run], before any command. *)
Definition world0 : World := mkWorld (mkMutex false None) [].

(** ** A state-and-error monad *)

Definition M (A : Type) : Type := World -> Result A string * World.

Definition ret {A} (a : A) : M A := fun w => (Ok a, w).
Definition throw {A} (e : string) : M A := fun w => (Err e, w).
Definition bind {A B} (m : M A) (k : A -> M B) : M B :=
  fun w => match m w with
           | (Ok a, w') => k a w'
           | (Err e, w') => (Err e, w')
           end.

Notation "x <- m ;; k" := (bind m (fun x => k))
  (at level 61, m at next level, right associativity).
Notation "m ;;; k" := (bind m (fun _ => k))
  (at level 61, right associativity).

(** Rust's [?] on a [Result] already in hand. *)
Definition lift {A} (r : Result A string) : M A :=
  match r with Ok a => ret a | Err e => throw e end.

(** [Option::ok_or(msg)?] *)
Definition ok_or {A} (o : option A) (msg : string) : M A :=
  match o with Some a => ret a | None => throw msg end.

Definition emit (ev : Event) : M unit :=
  fun w => (Ok tt, mkWorld (state w) (trace w ++ [ev])).

(** [state.0.lock().map_err(|e| e.to_string())?] *)
Definition lock : M unit :=
  fun w => if poisoned (state w)
           then (Err "poisoned lock: another task failed inside", w)
           else (Ok tt, w).

Definition get_slot : M (option FfmpegSession) := fun w => (Ok (slot w), w).

Definition put_slot (o : option FfmpegSession) : M unit :=
  fun w => (Ok tt, mkWorld (mkMutex (poisoned (state w)) o) (trace w)).

(** [guard.take()] *)
Definition take_slot : M (option FfmpegSession) :=
  o <- get_slot ;; put_slot None ;;; ret o.

(** ** OS operations, with their outcome given as an argument *)

(** [ffmpeg_sidecar::download::auto_download().map_err(|e| e.to_string())?] *)
Definition auto_download (outcome : Result unit string) : M unit :=
  emit EvDownload ;;; lift outcome.

(** [cmd.spawn()]: the OS either creates a child or reports an error. *)
Definition spawn (c : Command) (outcome : Result Child string) : M Child :=
  emit (EvSpawn c) ;;;
  match outcome with
  | Ok ch => ret ch
  | Err e => throw ("Failed to spawn FFmpeg: " ++ e)
  end.

(** [Write::write_all]: an empty buffer returns [Ok] without any write;
    otherwise the bytes go to the pipe and the OS decides the outcome. *)
Definition write_all (fd : ChildStdin) (data : list Byte.byte)
    (outcome : Result unit string) : M unit :=
  match data with
  | [] => ret tt
  | _ :: _ => emit (EvWrite fd data) ;;; lift outcome
  end.

(** [Child::wait_with_output]: waits for the child, outcome from the OS. *)
Definition wait_with_output (ch : Child) (outcome : Result ExitStatus string)
    : M ExitStatus :=
  emit (EvWait (child_pid ch)) ;;;
  match outcome with
  | Ok s => ret s
  | Err e => throw ("FFmpeg wait error: " ++ e)
  end.

(** ** The commands *)

Definition codec_args (codec : string) : list string :=
  if String.eqb codec "prores" then
    ["-c:v"; "prores_ks"; "-profile:v"; "3"; "-vendor"; "apl0";
     "-pix_fmt"; "yuv422p10le"]
  else if String.eqb codec "ffv1" then
    ["-c:v"; "ffv1"; "-level"; "3"; "-coder"; "1"; "-context"; "1";
     "-pix_fmt"; "yuv420p"]
  else
    ["-c:v"; "libx264"; "-preset"; "slow"; "-crf"; "18"; "-pix_fmt"; "yuv420p"].

Definition build_command (ffmpeg_path output_path : string)
    (width height fps : Z) (codec : string) : Command :=
  let codec_args := codec_args codec in
  let fps_str := fmt_int fps in
  let size_str := fmt_int width ++ "x" ++ fmt_int height in
  let cmd := Command_new ffmpeg_path in
  let cmd := Command_args cmd
    ["-y"; "-f"; "rawvideo"; "-vcodec"; "rawvideo"; "-pix_fmt"; "rgba";
     "-s"; size_str; "-r"; fps_str; "-i"; "pipe:0"] in
  let cmd := Command_args cmd codec_args in
  let cmd := Command_args cmd ["-movflags"; "+faststart"] in
  let cmd := Command_arg cmd output_path in
  Command_stdio cmd Piped Null Null.

(** [start_ffmpeg_encode]; [dl] is the outcome of [auto_download],
    [ffmpeg_path] the path [ffmpeg_sidecar::paths::ffmpeg_path()] returns and
    [sp] the outcome of [spawn]. *)
Definition start_ffmpeg_encode (output_path : string) (width height fps : Z)
    (codec : string) (dl : Result unit string) (ffmpeg_path : string)
    (sp : Result Child string) : M unit :=
  lock ;;;
  guard <- get_slot ;;
  match guard with
  | Some _ => throw "FFmpeg session already active"
  | None =>
      auto_download dl ;;;
      let cmd := build_command ffmpeg_path output_path width height fps codec in
      ch <- spawn cmd sp ;;
      (* child.stdin.take() *)
      let ch' := mkChild (child_pid ch) None in
      stdin <- ok_or (child_stdin ch) "Failed to get FFmpeg stdin" ;;
      put_slot (Some (mkFfmpegSession ch' stdin width height)) ;;;
      ret tt
  end.

(** [(session.width * session.height * 4) as usize] *)
Definition expected_len (s : FfmpegSession) : Z :=
  u32_mul (u32_mul (width s) (height s)) 4.

Definition frame_size_mismatch_msg (got expected : Z) : string :=
  "Frame size mismatch: got " ++ fmt_int got ++ " bytes, expected "
    ++ fmt_int expected.

Definition no_session_msg : string := "No active FFmpeg session".
Definition already_active_msg : string := "FFmpeg session already active".

(** [send_frame_rgba]; [wr] is the outcome of the pipe write. *)
Definition send_frame_rgba (data : list Byte.byte) (wr : Result unit string)
    : M unit :=
  lock ;;;
  guard <- get_slot ;;
  session <- ok_or guard no_session_msg ;;
  let expected := expected_len session in
  if negb (Z.of_nat (List.length data) =? expected) then
    throw (frame_size_mismatch_msg (Z.of_nat (List.length data)) expected)
  else
    fun w => match write_all (stdin session) data wr w with
             | (Ok _, w') => (Ok tt, w')
             | (Err e, w') => (Err ("FFmpeg stdin write error: " ++ e), w')
             end.

(** [stop_ffmpeg_encode]; [wt] is the outcome of waiting for the child. *)
Definition stop_ffmpeg_encode (wt : Result ExitStatus string) : M unit :=
  lock ;;;
  guard <- take_slot ;;
  session <- ok_or guard no_session_msg ;;
  (* drop(session.stdin) closes the pipe *)
  emit (EvClose (stdin session)) ;;;
  status <- wait_with_output (child session) wt ;;
  if negb (status_success status) then
    throw ("FFmpeg exited with code " ++ fmt_debug_option_i32 (exit_code status))
  else ret tt.

(** ** Reachable worlds: any sequence of commands from [world0], with
    [u32] arguments and any OS outcomes. *)
Inductive step : World -> World -> Prop :=
| step_start : forall w p wd ht fps c dl fp sp,
    is_u32 wd -> is_u32 ht -> is_u32 fps ->
    step w (snd (start_ffmpeg_encode p wd ht fps c dl fp sp w))
| step_send : forall w data wr,
    step w (snd (send_frame_rgba data wr w))
| step_stop : forall w wt,
    step w (snd (stop_ffmpeg_encode wt w)).

Inductive reachable : World -> Prop :=
| reach_init : reachable world0
| reach_step : forall w w', reachable w -> step w w' -> reachable w'.

(** ** Proof automation: run a command symbolically, splitting on every
    branch the code takes. *)
Ltac split_on x :=
  lazymatch x with
  | context [match _ with _ => _ end] => fail
  | _ => destruct x eqn:?; cbn -[expected_len Z.eqb Z.of_nat fmt_int] in *
  end.

Ltac run_cmd :=
  unfold start_ffmpeg_encode, send_frame_rgba, stop_ffmpeg_encode,
    auto_download, spawn, write_all, wait_with_output, take_slot in *;
  unfold bind, ret, throw, lift, ok_or, emit, lock, get_slot, put_slot,
    slot in *;
  cbn -[expected_len Z.eqb Z.of_nat fmt_int] in *;
  repeat match goal with
         | |- context [match ?x with _ => _ end] => split_on x
         | H : context [match ?x with _ => _ end] |- _ => split_on x
         end.

(** ** The lock is never poisoned

    A [Mutex] is poisoned only when a thread panics while holding it; none of
    the modelled command bodies panics, so the poison flag is never set. *)

Lemma step_poisoned : forall w w',
  step w w' -> poisoned (state w') = poisoned (state w).
Proof.
  intros w w' Hs; destruct Hs; destruct w as [[pz sl] tr]; run_cmd;
    try reflexivity; try congruence.
Qed.

Lemma reachable_not_poisoned : forall w,
  reachable w -> poisoned (state w) = false.
Proof.
  intros w Hr; induction Hr as [|w w' Hr IH Hs].
  - reflexivity.
  - rewrite (step_poisoned _ _ Hs); exact IH.
Qed.

(** Destructs a reachable world into its poison flag, slot and trace. *)
Ltac open_world w Hr :=
  let Hp := fresh "Hp" in
  pose proof (reachable_not_poisoned w Hr) as Hp;
  destruct w as [[? ?] ?]; cbn in Hp; subst.

(** [expected_len] is the mathematical product as long as it fits in a
    [u32]. *)
Lemma expected_len_small : forall s,
  0 <= width s -> 0 <= height s -> width s * height s * 4 < 2 ^ 32 ->
  expected_len s = width s * height s * 4.
Proof.
  intros s Hw Hh Hlt; unfold expected_len, u32_mul, wrap32.
  rewrite (Z.mod_small (width s * height s)) by nia.
  apply Z.mod_small; nia.
Qed.

(** ** Concrete worlds used by the witnesses *)

Definition child1 : Child := mkChild 42 (Some (mkChildStdin 7)).

(** After [start(path="out.mp4", width=64, height=64, fps=30, codec="h264")]. *)
Definition world_h264 : World :=
  snd (start_ffmpeg_encode "out.mp4" 64 64 30 "h264" (Ok tt) "ffmpeg"
         (Ok child1) world0).

Definition session_h264 : FfmpegSession :=
  mkFfmpegSession (mkChild 42 None) (mkChildStdin 7) 64 64.

Lemma reachable_world_h264 : reachable world_h264.
Proof.
  eapply reach_step; [apply reach_init|].
  apply step_start; unfold is_u32; lia.
Qed.

Lemma slot_world_h264 : slot world_h264 = Some session_h264.
Proof. reflexivity. Qed.

(** ** Claims *)

(** C1: on every reachable world with an active session, [stop] empties the
    store whatever the wait reports (an error, a failing exit status or
    success): it closes the pipe and waits only after taking the session out,
    a second [stop] then fails with [NoActiveSession], and a new [start]
    succeeds when the OS cooperates. *)
Theorem stop_clears_store : forall w s wt,
  reachable w -> slot w = Some s ->
  slot (snd (stop_ffmpeg_encode wt w)) = None /\
  trace (snd (stop_ffmpeg_encode wt w))
    = (trace w ++ [EvClose (stdin s); EvWait (child_pid (child s))])%list /\
  (forall wt', fst (stop_ffmpeg_encode wt' (snd (stop_ffmpeg_encode wt w)))
               = Err no_session_msg) /\
  (forall p wd ht fps c fp pid fd,
     fst (start_ffmpeg_encode p wd ht fps c (Ok tt) fp
            (Ok (mkChild pid (Some fd))) (snd (stop_ffmpeg_encode wt w)))
     = Ok tt).
Proof.
  intros w s wt Hr Hs; open_world w Hr; unfold slot in Hs; cbn in Hs; subst.
  run_cmd; repeat split; intros; run_cmd;
    rewrite <- ?app_assoc; reflexivity.
Qed.

Lemma stop_clears_store_witness :
  reachable world_h264 /\ slot world_h264 = Some session_h264 /\
  slot (snd (stop_ffmpeg_encode (Err "wait failed") world_h264)) = None.
Proof.
  split; [exact reachable_world_h264|].
  split; [exact slot_world_h264|].
  exact (proj1 (stop_clears_store world_h264 session_h264 (Err "wait failed")
                  reachable_world_h264 slot_world_h264)).
Defined.

Ltac z_contra :=
  match goal with
  | H : negb (?a =? ?b) = true, H' : ?a = ?b |- _ =>
      rewrite H', Z.eqb_refl in H; discriminate
  | H : negb (?a =? ?b) = false, H' : ?a <> ?b |- _ =>
      apply negb_false_iff, Z.eqb_eq in H; contradiction
  end.

(** C2: on a reachable world with an active session, a frame whose length is
    not the session's expected length is refused with the frame-size
    mismatch message carrying both counts; nothing is written (the world,
    trace included, is unchanged), and a correctly sized frame sent next is
    still accepted and leaves the session installed. *)
Theorem send_size_mismatch : forall w s data wr,
  reachable w -> slot w = Some s ->
  Z.of_nat (List.length data) <> expected_len s ->
  send_frame_rgba data wr w
    = (Err (frame_size_mismatch_msg (Z.of_nat (List.length data))
                                    (expected_len s)), w) /\
  (forall data', Z.of_nat (List.length data') = expected_len s ->
     fst (send_frame_rgba data' (Ok tt) w) = Ok tt /\
     slot (snd (send_frame_rgba data' (Ok tt) w)) = Some s).
Proof.
  intros w s data wr Hr Hs Hlen; open_world w Hr; unfold slot in Hs;
    cbn in Hs; subst.
  split.
  - run_cmd; try z_contra; reflexivity.
  - intros data' Hlen'; run_cmd; try z_contra;
    split; reflexivity.
Qed.

Definition frame100 : list Byte.byte := repeat Byte.x00 100.

Lemma send_size_mismatch_witness :
  reachable world_h264 /\ slot world_h264 = Some session_h264 /\
  Z.of_nat (List.length frame100) <> expected_len session_h264 /\
  send_frame_rgba frame100 (Ok tt) world_h264
    = (Err "Frame size mismatch: got 100 bytes, expected 16384", world_h264).
Proof.
  assert (Hne : Z.of_nat (List.length frame100) <> expected_len session_h264)
    by (vm_compute; discriminate).
  split; [exact reachable_world_h264|].
  split; [exact slot_world_h264|].
  split; [exact Hne|].
  exact (proj1 (send_size_mismatch world_h264 session_h264 frame100 (Ok tt)
                  reachable_world_h264 slot_world_h264 Hne)).
Defined.

(** C5: on a reachable world with an active session, [start] fails with the
    already-active message before any I/O and leaves the world, the
    installed session included, unchanged. *)
Theorem start_when_active : forall w s p wd ht fps c dl fp sp,
  reachable w -> slot w = Some s ->
  start_ffmpeg_encode p wd ht fps c dl fp sp w = (Err already_active_msg, w).
Proof.
  intros w s p wd ht fps c dl fp sp Hr Hs; open_world w Hr; unfold slot in Hs;
    cbn in Hs; subst; reflexivity.
Qed.

Lemma start_when_active_witness :
  reachable world_h264 /\ slot world_h264 = Some session_h264 /\
  start_ffmpeg_encode "b.mp4" 32 32 24 "ffv1" (Ok tt) "ffmpeg" (Ok child1)
    world_h264 = (Err already_active_msg, world_h264).
Proof.
  split; [exact reachable_world_h264|].
  split; [exact slot_world_h264|].
  exact (start_when_active world_h264 session_h264 "b.mp4" 32 32 24 "ffv1"
           (Ok tt) "ffmpeg" (Ok child1) reachable_world_h264 slot_world_h264).
Defined.

(** C8: on a reachable world with no session, both [send] and [stop] fail
    with the no-active-session message and leave the world unchanged. *)
Theorem no_session_send_stop : forall w data wr wt,
  reachable w -> slot w = None ->
  send_frame_rgba data wr w = (Err no_session_msg, w) /\
  stop_ffmpeg_encode wt w = (Err no_session_msg, w).
Proof.
  intros w data wr wt Hr Hs; open_world w Hr; unfold slot in Hs;
    cbn in Hs; subst; split; reflexivity.
Qed.

Lemma no_session_send_stop_witness :
  reachable world0 /\ slot world0 = None /\
  send_frame_rgba frame100 (Ok tt) world0 = (Err no_session_msg, world0).
Proof.
  split; [exact reach_init|].
  split; [reflexivity|].
  exact (proj1 (no_session_send_stop world0 frame100 (Ok tt) (Ok (mkExitStatus (Some 0)))
                  reach_init eq_refl)).
Defined.

(** C9: on a reachable world with an active session, [send] leaves that
    session installed with all its fields unchanged, whatever the frame and
    whatever the pipe write reports. *)
Theorem send_keeps_session : forall w s data wr,
  reachable w -> slot w = Some s ->
  slot (snd (send_frame_rgba data wr w)) = Some s.
Proof.
  intros w s data wr Hr Hs; open_world w Hr; unfold slot in Hs;
    cbn in Hs; subst; run_cmd; reflexivity.
Qed.

Lemma send_keeps_session_witness :
  reachable world_h264 /\ slot world_h264 = Some session_h264 /\
  slot (snd (send_frame_rgba frame100 (Err "broken pipe")
               world_h264)) = Some session_h264.
Proof.
  split; [exact reachable_world_h264|].
  split; [exact slot_world_h264|].
  exact (send_keeps_session world_h264 session_h264 frame100
           (Err "broken pipe") reachable_world_h264 slot_world_h264).
Defined.

(** C10: on a reachable world with no session, a [start] that fails (the
    binary cannot be obtained, the spawn fails, or the child has no stdin)
    leaves the store exactly as it was, empty, and a following [start] that
    the OS lets through succeeds. *)
Theorem start_failure_keeps_store : forall w p wd ht fps c dl fp sp e,
  reachable w -> slot w = None ->
  fst (start_ffmpeg_encode p wd ht fps c dl fp sp w) = Err e ->
  state (snd (start_ffmpeg_encode p wd ht fps c dl fp sp w)) = state w /\
  (forall p' wd' ht' fps' c' fp' pid fd,
     fst (start_ffmpeg_encode p' wd' ht' fps' c' (Ok tt) fp'
            (Ok (mkChild pid (Some fd)))
            (snd (start_ffmpeg_encode p wd ht fps c dl fp sp w))) = Ok tt).
Proof.
  intros w p wd ht fps c dl fp sp e Hr Hs He; open_world w Hr;
    unfold slot in Hs; cbn in Hs; subst.
  run_cmd; try discriminate; split; try reflexivity; intros; run_cmd;
    reflexivity.
Qed.

Lemma start_failure_keeps_store_witness :
  reachable world0 /\ slot world0 = None /\
  fst (start_ffmpeg_encode "out.mp4" 64 64 30 "h264" (Ok tt) "ffmpeg"
         (Ok (mkChild 42 None)) world0) = Err "Failed to get FFmpeg stdin" /\
  state (snd (start_ffmpeg_encode "out.mp4" 64 64 30 "h264" (Ok tt) "ffmpeg"
                (Ok (mkChild 42 None)) world0)) = state world0.
Proof.
  split; [exact reach_init|].
  split; [reflexivity|].
  split; [reflexivity|].
  exact (proj1 (start_failure_keeps_store world0 "out.mp4" 64 64 30 "h264"
                  (Ok tt) "ffmpeg" (Ok (mkChild 42 None))
                  "Failed to get FFmpeg stdin" reach_init eq_refl eq_refl)).
Defined.

(** C6: every codec selector other than "prores" and "ffv1" gets the h264
    argument list (libx264, preset slow, crf 18, yuv420p), and [start] with
    such a selector behaves exactly as [start] with "h264", for every
    argument, OS outcome and world. *)
Theorem codec_fallback_h264 : forall codec,
  codec <> "prores" -> codec <> "ffv1" ->
  codec_args codec
    = ["-c:v"; "libx264"; "-preset"; "slow"; "-crf"; "18"; "-pix_fmt"; "yuv420p"] /\
  (forall p wd ht fps dl fp sp w,
     start_ffmpeg_encode p wd ht fps codec dl fp sp w
     = start_ffmpeg_encode p wd ht fps "h264" dl fp sp w).
Proof.
  intros codec Hp Hf.
  assert (Hc : codec_args codec = codec_args "h264").
  { unfold codec_args.
    apply String.eqb_neq in Hp, Hf; rewrite Hp, Hf; reflexivity. }
  split.
  - rewrite Hc; reflexivity.
  - intros; unfold start_ffmpeg_encode, build_command; rewrite Hc; reflexivity.
Qed.

Lemma codec_fallback_h264_witness :
  "unknownvalue" <> "prores" /\ "unknownvalue" <> "ffv1" /\
  start_ffmpeg_encode "out.mp4" 64 64 30 "unknownvalue" (Ok tt) "ffmpeg"
    (Ok child1) world0
  = start_ffmpeg_encode "out.mp4" 64 64 30 "h264" (Ok tt) "ffmpeg"
      (Ok child1) world0.
Proof.
  assert (H1 : "unknownvalue" <> "prores") by discriminate.
  assert (H2 : "unknownvalue" <> "ffv1") by discriminate.
  split; [exact H1|]. split; [exact H2|].
  exact (proj2 (codec_fallback_h264 "unknownvalue" H1 H2) "out.mp4" 64 64 30
           (Ok tt) "ffmpeg" (Ok child1) world0).
Defined.

(** C7: a successful [start] downloads the binary, then spawns it with the
    argument vector: the overwrite flag, the raw RGBA input declaration
    (size "WxH", frame rate, input from stdin), the codec profile's
    arguments, the faststart flag and the output path last; stdin is a pipe
    and stdout and stderr are discarded. *)
Theorem start_command_line : forall w p wd ht fps c dl fp sp,
  fst (start_ffmpeg_encode p wd ht fps c dl fp sp w) = Ok tt ->
  trace (snd (start_ffmpeg_encode p wd ht fps c dl fp sp w)) =
  (trace w ++
   [EvDownload;
    EvSpawn (mkCommand fp
      (["-y"; "-f"; "rawvideo"; "-vcodec"; "rawvideo"; "-pix_fmt"; "rgba";
        "-s"; (fmt_int wd ++ "x" ++ fmt_int ht)%string; "-r"; fmt_int fps;
        "-i"; "pipe:0"]
       ++ codec_args c ++ ["-movflags"; "+faststart"; p])
      Piped Null Null)])%list.
Proof.
  intros w p wd ht fps c dl fp sp Hok; destruct w as [[pz sl] tr].
  run_cmd; try discriminate.
  unfold build_command, Command_stdio, Command_arg, Command_args, Command_new;
    cbn -[fmt_int codec_args].
  rewrite <- !app_assoc; reflexivity.
Qed.

Lemma start_command_line_witness :
  fst (start_ffmpeg_encode "out.mp4" 64 64 30 "prores" (Ok tt) "ffmpeg"
         (Ok child1) world0) = Ok tt /\
  trace (snd (start_ffmpeg_encode "out.mp4" 64 64 30 "prores" (Ok tt) "ffmpeg"
                (Ok child1) world0)) =
  [EvDownload;
   EvSpawn (mkCommand "ffmpeg"
     ["-y"; "-f"; "rawvideo"; "-vcodec"; "rawvideo"; "-pix_fmt"; "rgba";
      "-s"; "64x64"; "-r"; "30"; "-i"; "pipe:0";
      "-c:v"; "prores_ks"; "-profile:v"; "3"; "-vendor"; "apl0";
      "-pix_fmt"; "yuv422p10le"; "-movflags"; "+faststart"; "out.mp4"]
     Piped Null Null)].
Proof.
  assert (Hok : fst (start_ffmpeg_encode "out.mp4" 64 64 30 "prores" (Ok tt)
                       "ffmpeg" (Ok child1) world0) = Ok tt) by reflexivity.
  split; [exact Hok|].
  exact (start_command_line world0 "out.mp4" 64 64 30 "prores" (Ok tt) "ffmpeg"
           (Ok child1) Hok).
Defined.

(** C3 (code bug): [expected_len] is computed in wrapping [u32] arithmetic.
    A session of 65536 x 16384 pixels, which [start] installs, has
    width x height x 4 = 2^32 but an expected length of 0, so [send]
    accepts an empty frame. *)
Definition world_wrap : World :=
  snd (start_ffmpeg_encode "out.mp4" 65536 16384 30 "h264" (Ok tt) "ffmpeg"
         (Ok child1) world0).

Theorem send_expected_len_wraps :
  reachable world_wrap /\
  slot world_wrap
    = Some (mkFfmpegSession (mkChild 42 None) (mkChildStdin 7) 65536 16384) /\
  65536 * 16384 * 4 = 2 ^ 32 /\
  expected_len (mkFfmpegSession (mkChild 42 None) (mkChildStdin 7) 65536 16384)
    = 0 /\
  fst (send_frame_rgba [] (Ok tt) world_wrap) = Ok tt.
Proof.
  split.
  { eapply reach_step; [apply reach_init|].
    apply step_start; unfold is_u32; lia. }
  split; [reflexivity|].
  split; [reflexivity|].
  split; vm_compute; reflexivity.
Qed.

(** After [start] with width 0 and height 0: the code has no guard on the
    geometry, so the session is installed. *)
Definition world_zero : World :=
  snd (start_ffmpeg_encode "out.mp4" 0 0 30 "h264" (Ok tt) "ffmpeg"
         (Ok child1) world0).

(** C4, counterexample: it is not true that every installed session has a
    positive width and height; [start] installs a 0 x 0 session. *)
Lemma installed_session_zero_size :
  ~ (forall w s, reachable w -> slot w = Some s -> 0 < width s /\ 0 < height s).
Proof.
  intros H.
  assert (Hr : reachable world_zero).
  { eapply reach_step; [apply reach_init|].
    apply step_start; unfold is_u32; lia. }
  destruct (H world_zero (mkFfmpegSession (mkChild 42 None) (mkChildStdin 7) 0 0)
              Hr eq_refl) as [Hw _].
  cbn in Hw; lia.
Qed.

(** C4, as amended: [start] performs no check on the geometry: its outcome
    does not depend on the width and height at all, and on an empty store it
    succeeds for every width and height (zero included) when the OS
    cooperates.  A session installed by a successful [start] holds exactly
    the width and height passed to it, and no command changes an installed
    session while it stays installed. *)
Theorem session_dims_from_start :
  (forall w p wd ht wd' ht' fps c dl fp sp,
     fst (start_ffmpeg_encode p wd ht fps c dl fp sp w)
     = fst (start_ffmpeg_encode p wd' ht' fps c dl fp sp w)) /\
  (forall w p wd ht fps c fp pid fd,
     reachable w -> slot w = None ->
     fst (start_ffmpeg_encode p wd ht fps c (Ok tt) fp
            (Ok (mkChild pid (Some fd))) w) = Ok tt /\
     slot (snd (start_ffmpeg_encode p wd ht fps c (Ok tt) fp
                  (Ok (mkChild pid (Some fd))) w))
     = Some (mkFfmpegSession (mkChild pid None) fd wd ht)) /\
  (forall w p wd ht fps c dl fp sp,
     fst (start_ffmpeg_encode p wd ht fps c dl fp sp w) = Ok tt ->
     exists ch fd,
       slot (snd (start_ffmpeg_encode p wd ht fps c dl fp sp w))
       = Some (mkFfmpegSession ch fd wd ht)) /\
  (forall w w' s s',
     reachable w -> step w w' -> slot w = Some s -> slot w' = Some s' ->
     s' = s).
Proof.
  split; [|split; [|split]].
  - intros w p wd ht wd' ht' fps c dl fp sp; destruct w as [[pz sl] tr].
    run_cmd; reflexivity.
  - intros w p wd ht fps c fp pid fd Hr Hw; open_world w Hr; unfold slot in Hw;
      cbn in Hw; subst; run_cmd; split; reflexivity.
  - intros w p wd ht fps c dl fp sp Hok; destruct w as [[pz sl] tr].
    run_cmd; try discriminate; eauto.
  - intros w w' s s' Hr Hs Hw Hw'; destruct Hs; open_world w Hr;
      unfold slot in Hw; cbn in Hw; subst; run_cmd; congruence.
Qed.

Lemma session_dims_from_start_witness :
  reachable world0 /\ slot world0 = None /\
  fst (start_ffmpeg_encode "out.mp4" 0 0 30 "h264" (Ok tt) "ffmpeg"
         (Ok child1) world0) = Ok tt /\
  slot world_zero = Some (mkFfmpegSession (mkChild 42 None) (mkChildStdin 7) 0 0) /\
  (exists ch fd, slot world_zero = Some (mkFfmpegSession ch fd 0 0)).
Proof.
  assert (Hok : fst (start_ffmpeg_encode "out.mp4" 0 0 30 "h264" (Ok tt)
                       "ffmpeg" (Ok child1) world0) = Ok tt) by reflexivity.
  split; [exact reach_init|].
  split; [reflexivity|].
  split; [exact Hok|].
  split.
  - exact (proj2 (proj1 (proj2 session_dims_from_start) world0 "out.mp4" 0 0 30
             "h264" "ffmpeg" 42 (mkChildStdin 7) reach_init eq_refl)).
  - exact (proj1 (proj2 (proj2 session_dims_from_start)) world0 "out.mp4" 0 0 30
             "h264" (Ok tt) "ffmpeg" (Ok child1) Hok).
Defined.

(** ** Further properties of the commands *)

(** Every installed session of a reachable world has [u32] dimensions, and
    its [Child] no longer holds the stdin handle, which [start] moved into
    the session. *)
Lemma reachable_session_wf_aux : forall w s,
  reachable w -> slot w = Some s ->
  is_u32 (width s) /\ is_u32 (height s) /\ child_stdin (child s) = None.
Proof.
  intros w s Hr; revert s; induction Hr as [|w w' Hr IH Hs]; intros s Hw.
  - discriminate.
  - destruct Hs; destruct w as [[pz sl] tr]; unfold slot in IH; cbn in IH;
      run_cmd; subst; try discriminate;
      try (injection Hw as <-; cbn; auto); auto.
Qed.

(** Every pipe write a command performs goes to the stdin of the session
    installed at that moment, which stays installed, and carries a
    non-empty frame of exactly the session's expected length.  The
    statement is about the events the step appends to the trace. *)
Theorem step_writes_framed : forall w w',
  step w w' ->
  exists sfx, trace w' = (trace w ++ sfx)%list /\
  (forall fd d, In (EvWrite fd d) sfx ->
   exists s, slot w = Some s /\ slot w' = Some s /\ fd = stdin s /\
             d <> [] /\ Z.of_nat (List.length d) = expected_len s).
Proof.
  intros w w' Hs; destruct Hs; destruct w as [[pz sl] tr]; run_cmd;
    first [ exists []; split; [rewrite app_nil_r; reflexivity|];
            intros ? ? Hin; contradiction Hin
          | eexists; split; [rewrite <- ?app_assoc; reflexivity|] ];
    intros fd' d' Hin; cbn in Hin;
    repeat match goal with
           | H : _ \/ _ |- _ => destruct H
           | H : False |- _ => contradiction
           | H : EvWrite _ _ = EvWrite _ _ |- _ => injection H as <- <-
           | H : _ = EvWrite _ _ |- _ => discriminate H
           end.
  all: eexists; repeat split; try reflexivity; try discriminate;
    match goal with
    | H : negb (_ =? _) = false |- _ =>
        apply negb_false_iff, Z.eqb_eq in H; exact H
    end.
Qed.

(** A 1 x 1 session (frames of 4 bytes), for small witnesses. *)
Definition world_1x1 : World :=
  snd (start_ffmpeg_encode "o.mkv" 1 1 25 "ffv1" (Ok tt) "ffmpeg"
         (Ok child1) world0).

Definition session_1x1 : FfmpegSession :=
  mkFfmpegSession (mkChild 42 None) (mkChildStdin 7) 1 1.

Definition frame4 : list Byte.byte := [Byte.x01; Byte.x02; Byte.x03; Byte.xff].

Lemma reachable_world_1x1 : reachable world_1x1.
Proof.
  eapply reach_step; [apply reach_init|].
  apply step_start; unfold is_u32; lia.
Qed.

Lemma slot_world_1x1 : slot world_1x1 = Some session_1x1.
Proof. reflexivity. Qed.

Lemma step_writes_framed_witness :
  step world_1x1 (snd (send_frame_rgba frame4 (Ok tt) world_1x1)) /\
  exists sfx,
    trace (snd (send_frame_rgba frame4 (Ok tt) world_1x1))
    = (trace world_1x1 ++ sfx)%list /\
    (forall fd d, In (EvWrite fd d) sfx ->
     exists s, slot world_1x1 = Some s /\
       slot (snd (send_frame_rgba frame4 (Ok tt) world_1x1)) = Some s /\
       fd = stdin s /\ d <> [] /\ Z.of_nat (List.length d) = expected_len s).
Proof.
  assert (Hs : step world_1x1 (snd (send_frame_rgba frame4 (Ok tt) world_1x1)))
    by apply step_send.
  split; [exact Hs|].
  exact (step_writes_framed _ _ Hs).
Defined.

(** The pipe is closed, and the child waited for, only by a [stop] that
    takes the session owning them out of the store: every close or wait a
    step appends to the trace targets the stdin or the child of the session
    installed before the step, and the store is empty after it. *)
Theorem step_close_wait_from_stop : forall w w',
  step w w' ->
  exists sfx, trace w' = (trace w ++ sfx)%list /\
  (forall fd, In (EvClose fd) sfx ->
   exists s, slot w = Some s /\ fd = stdin s /\ slot w' = None) /\
  (forall pid, In (EvWait pid) sfx ->
   exists s, slot w = Some s /\ pid = child_pid (child s) /\ slot w' = None).
Proof.
  intros w w' Hs; destruct Hs; destruct w as [[pz sl] tr]; run_cmd;
    first [ exists []; split; [rewrite app_nil_r; reflexivity|];
            split; intros ? Hin; contradiction Hin
          | eexists; split; [rewrite <- ?app_assoc; reflexivity|] ];
    split; intros x Hin; cbn in Hin;
    repeat match goal with
           | H : _ \/ _ |- _ => destruct H
           | H : False |- _ => contradiction
           | H : EvClose _ = EvClose _ |- _ => injection H as <-
           | H : EvWait _ = EvWait _ |- _ => injection H as <-
           | H : _ = EvClose _ |- _ => discriminate H
           | H : _ = EvWait _ |- _ => discriminate H
           end; eauto 6.
Qed.

Lemma step_close_wait_from_stop_witness :
  step world_1x1 (snd (stop_ffmpeg_encode (Ok (mkExitStatus (Some 0))) world_1x1)) /\
  exists sfx,
    trace (snd (stop_ffmpeg_encode (Ok (mkExitStatus (Some 0))) world_1x1))
    = (trace world_1x1 ++ sfx)%list /\
    (forall fd, In (EvClose fd) sfx ->
     exists s, slot world_1x1 = Some s /\ fd = stdin s /\
       slot (snd (stop_ffmpeg_encode (Ok (mkExitStatus (Some 0))) world_1x1))
       = None) /\
    (forall pid, In (EvWait pid) sfx ->
     exists s, slot world_1x1 = Some s /\ pid = child_pid (child s) /\
       slot (snd (stop_ffmpeg_encode (Ok (mkExitStatus (Some 0))) world_1x1))
       = None).
Proof.
  assert (Hs : step world_1x1
                 (snd (stop_ffmpeg_encode (Ok (mkExitStatus (Some 0))) world_1x1)))
    by apply step_stop.
  split; [exact Hs|].
  exact (step_close_wait_from_stop _ _ Hs).
Defined.

(** A frame of the expected, non-zero length is written whole to the
    session's pipe, as one write; [send] reports [Ok] when the write
    succeeds and the pipe error, prefixed, when it fails. *)
Theorem send_writes_frame : forall w s data wr,
  reachable w -> slot w = Some s ->
  Z.of_nat (List.length data) = expected_len s -> data <> [] ->
  trace (snd (send_frame_rgba data wr w))
    = (trace w ++ [EvWrite (stdin s) data])%list /\
  fst (send_frame_rgba data wr w)
    = match wr with
      | Ok _ => Ok tt
      | Err e => Err ("FFmpeg stdin write error: " ++ e)
      end.
Proof.
  intros w s data wr Hr Hw Hlen Hne; open_world w Hr; unfold slot in Hw;
    cbn in Hw; subst; run_cmd; try z_contra; try congruence;
    split; reflexivity.
Qed.

Lemma send_writes_frame_witness :
  reachable world_1x1 /\ slot world_1x1 = Some session_1x1 /\
  fst (send_frame_rgba frame4 (Err "Broken pipe") world_1x1)
    = Err "FFmpeg stdin write error: Broken pipe".
Proof.
  assert (Hl : Z.of_nat (List.length frame4) = expected_len session_1x1)
    by reflexivity.
  assert (Hne : frame4 <> []) by discriminate.
  split; [exact reachable_world_1x1|].
  split; [exact slot_world_1x1|].
  exact (proj2 (send_writes_frame world_1x1 session_1x1 frame4 (Err "Broken pipe")
                  reachable_world_1x1 slot_world_1x1 Hl Hne)).
Defined.

(** Two well-sized frames sent in a row are both accepted and reach the
    pipe in call order, with no other I/O in between. *)
Theorem send_two_frames_in_order : forall w s d1 d2,
  reachable w -> slot w = Some s ->
  Z.of_nat (List.length d1) = expected_len s -> d1 <> [] ->
  Z.of_nat (List.length d2) = expected_len s -> d2 <> [] ->
  fst (send_frame_rgba d1 (Ok tt) w) = Ok tt /\
  fst (send_frame_rgba d2 (Ok tt) (snd (send_frame_rgba d1 (Ok tt) w))) = Ok tt /\
  trace (snd (send_frame_rgba d2 (Ok tt) (snd (send_frame_rgba d1 (Ok tt) w))))
    = (trace w ++ [EvWrite (stdin s) d1; EvWrite (stdin s) d2])%list.
Proof.
  intros w s d1 d2 Hr Hw H1 Hn1 H2 Hn2; open_world w Hr; unfold slot in Hw;
    cbn in Hw; subst.
  destruct d1 as [|b1 l1]; [congruence|]; destruct d2 as [|b2 l2]; [congruence|].
  run_cmd; try z_contra; repeat split; try reflexivity.
  rewrite <- app_assoc; reflexivity.
Qed.

Lemma send_two_frames_in_order_witness :
  reachable world_1x1 /\ slot world_1x1 = Some session_1x1 /\
  trace (snd (send_frame_rgba [Byte.x00; Byte.x00; Byte.x00; Byte.x00] (Ok tt)
                (snd (send_frame_rgba frame4 (Ok tt) world_1x1))))
  = (trace world_1x1 ++
     [EvWrite (mkChildStdin 7) frame4;
      EvWrite (mkChildStdin 7) [Byte.x00; Byte.x00; Byte.x00; Byte.x00]])%list.
Proof.
  split; [exact reachable_world_1x1|].
  split; [exact slot_world_1x1|].
  exact (proj2 (proj2 (send_two_frames_in_order world_1x1 session_1x1 frame4
           [Byte.x00; Byte.x00; Byte.x00; Byte.x00] reachable_world_1x1
           slot_world_1x1 eq_refl ltac:(discriminate) eq_refl ltac:(discriminate)))).
Defined.

(** An empty frame is accepted, without any write, exactly when the
    session's expected length is 0; otherwise it is refused with
    "got 0 bytes". *)
Theorem send_empty_frame : forall w s wr,
  reachable w -> slot w = Some s ->
  send_frame_rgba [] wr w
  = (if expected_len s =? 0 then Ok tt
     else Err (frame_size_mismatch_msg 0 (expected_len s)), w).
Proof.
  intros w s wr Hr Hw; open_world w Hr; unfold slot in Hw; cbn in Hw; subst.
  unfold send_frame_rgba, bind, lock, get_slot, ok_or, ret, throw, write_all,
    slot; cbn -[expected_len Z.eqb].
  rewrite (Z.eqb_sym 0); destruct (expected_len s =? 0); reflexivity.
Qed.

Lemma send_empty_frame_witness :
  reachable world_zero /\
  slot world_zero = Some (mkFfmpegSession (mkChild 42 None) (mkChildStdin 7) 0 0) /\
  send_frame_rgba [] (Err "unused") world_zero = (Ok tt, world_zero).
Proof.
  assert (Hr : reachable world_zero).
  { eapply reach_step; [apply reach_init|].
    apply step_start; unfold is_u32; lia. }
  split; [exact Hr|]. split; [reflexivity|].
  exact (send_empty_frame world_zero _ (Err "unused") Hr eq_refl).
Defined.

(** As long as width x height x 4 fits in a [u32], [send] accepts exactly
    the frames of that many bytes: a frame of that length passes the check,
    any other length is refused with the product as the expected count. *)
Theorem send_accepts_exact_product : forall w s data wr,
  reachable w -> slot w = Some s -> width s * height s * 4 < 2 ^ 32 ->
  (Z.of_nat (List.length data) = width s * height s * 4 ->
   fst (send_frame_rgba data (Ok tt) w) = Ok tt) /\
  (Z.of_nat (List.length data) <> width s * height s * 4 ->
   send_frame_rgba data wr w
   = (Err (frame_size_mismatch_msg (Z.of_nat (List.length data))
                                   (width s * height s * 4)), w)).
Proof.
  intros w s data wr Hr Hw Hlt.
  destruct (reachable_session_wf_aux w s Hr Hw) as [[Hw0 _] [[Hh0 _] _]].
  pose proof (expected_len_small s Hw0 Hh0 Hlt) as He.
  rewrite <- He.
  open_world w Hr; unfold slot in Hw; cbn in Hw; subst.
  split; intro Hl; run_cmd; try z_contra; reflexivity.
Qed.

Lemma send_accepts_exact_product_witness :
  reachable world_1x1 /\ slot world_1x1 = Some session_1x1 /\
  fst (send_frame_rgba frame4 (Ok tt) world_1x1) = Ok tt.
Proof.
  split; [exact reachable_world_1x1|].
  split; [exact slot_world_1x1|].
  exact (proj1 (send_accepts_exact_product world_1x1 session_1x1 frame4 (Ok tt)
                  reachable_world_1x1 slot_world_1x1 ltac:(vm_compute; reflexivity))
           eq_refl).
Defined.

(** With a session installed, [stop] succeeds exactly when the child exits
    with code 0; a non-zero code is reported as [Some(code)], a signal
    death as [None], and a failed wait with its OS message. *)
Theorem stop_result : forall w s,
  reachable w -> slot w = Some s ->
  (forall st, fst (stop_ffmpeg_encode (Ok st) w) = Ok tt <-> exit_code st = Some 0) /\
  (forall c, c <> 0 ->
     fst (stop_ffmpeg_encode (Ok (mkExitStatus (Some c))) w)
     = Err ("FFmpeg exited with code Some(" ++ fmt_int c ++ ")")) /\
  fst (stop_ffmpeg_encode (Ok (mkExitStatus None)) w)
    = Err "FFmpeg exited with code None" /\
  (forall e, fst (stop_ffmpeg_encode (Err e) w) = Err ("FFmpeg wait error: " ++ e)).
Proof.
  intros w s Hr Hw; open_world w Hr; unfold slot in Hw; cbn in Hw; subst.
  split; [|split; [|split]].
  - intros [[c|]]; unfold stop_ffmpeg_encode, bind, lock, take_slot, get_slot,
      put_slot, ok_or, emit, wait_with_output, ret, throw, slot, status_success;
      cbn -[fmt_int]; [destruct c|]; cbn -[fmt_int]; split; congruence.
  - intros [|p|p] Hc; [congruence| |]; reflexivity.
  - reflexivity.
  - reflexivity.
Qed.

Lemma stop_result_witness :
  reachable world_1x1 /\ slot world_1x1 = Some session_1x1 /\
  fst (stop_ffmpeg_encode (Ok (mkExitStatus (Some 1))) world_1x1)
    = Err "FFmpeg exited with code Some(1)".
Proof.
  split; [exact reachable_world_1x1|].
  split; [exact slot_world_1x1|].
  exact (proj1 (proj2 (stop_result world_1x1 session_1x1 reachable_world_1x1
                         slot_world_1x1)) 1 ltac:(lia)).
Defined.

(** On an empty store, [start] fails in three ways, each leaving the store
    untouched: a failed download returns the downloader's message and
    spawns nothing; a failed spawn is reported with the OS message after
    the spawn attempt; a child without a stdin handle is reported after the
    process was spawned, and that child is neither stored nor waited for. *)
Theorem start_failure_modes : forall w p wd ht fps c fp,
  reachable w -> slot w = None ->
  (forall e sp,
     start_ffmpeg_encode p wd ht fps c (Err e) fp sp w
     = (Err e, mkWorld (state w) (trace w ++ [EvDownload])%list)) /\
  (forall e,
     start_ffmpeg_encode p wd ht fps c (Ok tt) fp (Err e) w
     = (Err ("Failed to spawn FFmpeg: " ++ e),
        mkWorld (state w)
          (trace w ++ [EvDownload; EvSpawn (build_command fp p wd ht fps c)])%list)) /\
  (forall pid,
     start_ffmpeg_encode p wd ht fps c (Ok tt) fp (Ok (mkChild pid None)) w
     = (Err "Failed to get FFmpeg stdin",
        mkWorld (state w)
          (trace w ++ [EvDownload; EvSpawn (build_command fp p wd ht fps c)])%list)).
Proof.
  intros w p wd ht fps c fp Hr Hw; open_world w Hr; unfold slot in Hw;
    cbn in Hw; subst.
  split; [|split]; intros; run_cmd; rewrite <- ?app_assoc; reflexivity.
Qed.

Lemma start_failure_modes_witness :
  reachable world0 /\ slot world0 = None /\
  start_ffmpeg_encode "out.mp4" 64 64 30 "h264" (Err "offline") "ffmpeg"
    (Ok child1) world0 = (Err "offline", mkWorld (state world0) [EvDownload]).
Proof.
  split; [exact reach_init|]. split; [reflexivity|].
  exact (proj1 (start_failure_modes world0 "out.mp4" 64 64 30 "h264" "ffmpeg"
                  reach_init eq_refl) "offline" (Ok child1)).
Defined.

(** On an empty store, a [start] whose download and spawn succeed with a
    stdin pipe installs a session holding that pipe, the child (with its
    stdin handle moved out) and the requested geometry, after exactly a
    download and a spawn. *)
Theorem start_success_installs : forall w p wd ht fps c fp pid fd,
  reachable w -> slot w = None ->
  start_ffmpeg_encode p wd ht fps c (Ok tt) fp (Ok (mkChild pid (Some fd))) w
  = (Ok tt,
     mkWorld (mkMutex false (Some (mkFfmpegSession (mkChild pid None) fd wd ht)))
       (trace w ++ [EvDownload; EvSpawn (build_command fp p wd ht fps c)])%list).
Proof.
  intros w p wd ht fps c fp pid fd Hr Hw; open_world w Hr; unfold slot in Hw;
    cbn in Hw; subst; run_cmd; rewrite <- app_assoc; reflexivity.
Qed.

Lemma start_success_installs_witness :
  reachable world0 /\ slot world0 = None /\
  fst (start_ffmpeg_encode "out.mp4" 64 64 30 "h264" (Ok tt) "ffmpeg"
         (Ok child1) world0) = Ok tt.
Proof.
  split; [exact reach_init|]. split; [reflexivity|].
  exact (f_equal fst (start_success_installs world0 "out.mp4" 64 64 30 "h264"
                        "ffmpeg" 42 (mkChildStdin 7) reach_init eq_refl)).
Defined.
